(** * nginx-log-to-csv: [parse_nginx_log.py]

    A shallow embedding of [src/parse_nginx_log.py] and the properties its
    specification states about it.

    - Text is a list of Unicode code points ([str]), as a Python [str] is.
    - [LOG_RE] is kept as the parsed pattern (one line of the definition per
      line of the source) and matched by a backtracking engine that follows
      CPython's [sre]: the opcodes [AT], [LITERAL], [MARK] and the greedy
      single-character repeat, with pointers into the subject modelled as
      suffixes of it.
    - The file itself is kept line by line ([parse_nginx_log_py]) and read
      by Python's rules of layout ([layout]): the joining of lines, the
      stack of indentations, the block a colon opens.
    - [git] and [ensure_parent_dir] are written in a state-and-exception
      monad over an abstract operating system ([Env]), whose calls may
      raise.

    The file is no Python program as it stands. The two
    [writer.writerow([...])] statements (lines 61-81 and 95-115) start at
    column 0 and so end [def main] after line 60; the line after the
    first of them, line 83, is indented without a block to be in, and
    Python refuses the whole file there with [IndentationError] before it
    runs a statement. What is whole in the file, [LOG_RE] and the two
    helpers, is verified as it is written; of the rest the development
    proves what a run of the file does. *)

From Stdlib Require Import NArith Ascii String DecimalString Lia.
From stdpp Require Import base option list strings gmap.

Open Scope N_scope.
Open Scope nat_scope.
Open Scope list_scope.

(** ** Text *)

Definition str := list N.

(** A literal of the source, as code points (the literals used are ASCII). *)
Definition u (s : string) : str :=
  map N_of_ascii (list_ascii_of_string s).
Arguments u : simpl never.

Definition in_ranges (rs : list (N * N)) (c : N) : bool :=
  existsb (fun r => (fst r <=? c)%N && (c <=? snd r)%N) rs.

(** [Py_UNICODE_ISSPACE]: what [\s] matches in a [str] pattern. *)
Definition Py_UNICODE_ISSPACE (c : N) : bool :=
  in_ranges
    [ (0x09, 0x0d); (0x1c, 0x20); (0x85, 0x85); (0xa0, 0xa0);
      (0x1680, 0x1680); (0x2000, 0x200a); (0x2028, 0x2029);
      (0x202f, 0x202f); (0x205f, 0x205f); (0x3000, 0x3000) ]%N c.

(** [Py_UNICODE_ISDECIMAL]: what [\d] matches in a [str] pattern, the
    category Nd (Unicode 14.0, the database of CPython 3.11). *)
Definition Py_UNICODE_ISDECIMAL (c : N) : bool :=
  in_ranges
    [ (0x30, 0x39); (0x660, 0x669); (0x6f0, 0x6f9); (0x7c0, 0x7c9);
      (0x966, 0x96f); (0x9e6, 0x9ef); (0xa66, 0xa6f); (0xae6, 0xaef);
      (0xb66, 0xb6f); (0xbe6, 0xbef); (0xc66, 0xc6f); (0xce6, 0xcef);
      (0xd66, 0xd6f); (0xde6, 0xdef); (0xe50, 0xe59); (0xed0, 0xed9);
      (0xf20, 0xf29); (0x1040, 0x1049); (0x1090, 0x1099); (0x17e0, 0x17e9);
      (0x1810, 0x1819); (0x1946, 0x194f); (0x19d0, 0x19d9); (0x1a80, 0x1a89);
      (0x1a90, 0x1a99); (0x1b50, 0x1b59); (0x1bb0, 0x1bb9); (0x1c40, 0x1c49);
      (0x1c50, 0x1c59); (0xa620, 0xa629); (0xa8d0, 0xa8d9); (0xa900, 0xa909);
      (0xa9d0, 0xa9d9); (0xa9f0, 0xa9f9); (0xaa50, 0xaa59); (0xabf0, 0xabf9);
      (0xff10, 0xff19); (0x104a0, 0x104a9); (0x10d30, 0x10d39);
      (0x11066, 0x1106f); (0x110f0, 0x110f9); (0x11136, 0x1113f);
      (0x111d0, 0x111d9); (0x112f0, 0x112f9); (0x11450, 0x11459);
      (0x114d0, 0x114d9); (0x11650, 0x11659); (0x116c0, 0x116c9);
      (0x11730, 0x11739); (0x118e0, 0x118e9); (0x11950, 0x11959);
      (0x11c50, 0x11c59); (0x11d50, 0x11d59); (0x11da0, 0x11da9);
      (0x16a60, 0x16a69); (0x16ac0, 0x16ac9); (0x16b50, 0x16b59);
      (0x1d7ce, 0x1d7ff); (0x1e140, 0x1e149); (0x1e2f0, 0x1e2f9);
      (0x1e950, 0x1e959); (0x1fbf0, 0x1fbf9) ]%N c.

(** ** The pattern language of [re], as far as [LOG_RE] uses it *)

Inductive category := CATEGORY_SPACE | CATEGORY_NOT_SPACE | CATEGORY_DIGIT.

(** A one-character set: [\s], [\S], [\d] or [[^c]]. *)
Inductive charset :=
| IN (cat : category)
| NOT_LITERAL (c : N).

Definition in_charset (cs : charset) (c : N) : bool :=
  match cs with
  | IN CATEGORY_SPACE => Py_UNICODE_ISSPACE c
  | IN CATEGORY_NOT_SPACE => negb (Py_UNICODE_ISSPACE c)
  | IN CATEGORY_DIGIT => Py_UNICODE_ISDECIMAL c
  | NOT_LITERAL x => negb (c =? x)%N
  end.

(** What stands in the pattern outside and inside a group. [MAX_REPEAT lo hi]
    is the greedy repeat of a one-character set; [hi = None] is
    [MAXREPEAT]. *)
Inductive atom :=
| AT_BEGINNING
| AT_END
| LITERAL (c : N)
| MAX_REPEAT (lo : nat) (hi : option nat) (cs : charset).

Inductive item :=
| ATOM (a : atom)
| SUBPATTERN (name : string) (body : list atom).

Coercion ATOM : atom >-> item.

Module ReSyntax.
Definition S_ := IN CATEGORY_NOT_SPACE.
Definition s_ := IN CATEGORY_SPACE.
Definition d_ := IN CATEGORY_DIGIT.
Definition plus (cs : charset) : atom := MAX_REPEAT 1 None cs.
Definition star (cs : charset) : atom := MAX_REPEAT 0 None cs.
Definition times (n : nat) (cs : charset) : atom := MAX_REPEAT n (Some n) cs.
Definition lbracket : N := 0x5b.
Definition rbracket : N := 0x5d.
Definition dquote : N := 0x22.
End ReSyntax.
Import ReSyntax.

(** [LOG_RE], lines 11-28 of the source, one source line per line. *)
Definition LOG_RE : list item :=
  [ ATOM AT_BEGINNING; SUBPATTERN "remote_addr" [plus S_]; ATOM (plus s_);
      ATOM (plus S_); ATOM (plus s_);
      SUBPATTERN "remote_user" [plus S_]; ATOM (plus s_) ] ++
  [ ATOM (LITERAL lbracket); SUBPATTERN "time_local" [plus (NOT_LITERAL rbracket)];
      ATOM (LITERAL rbracket); ATOM (plus s_) ] ++
  [ ATOM (LITERAL dquote); SUBPATTERN "request" [star (NOT_LITERAL dquote)];
      ATOM (LITERAL dquote); ATOM (plus s_) ] ++
  [ SUBPATTERN "status" [times 3 d_]; ATOM (plus s_) ] ++
  [ SUBPATTERN "body_bytes_sent" [plus S_]; ATOM (plus s_) ] ++
  [ ATOM (LITERAL dquote); SUBPATTERN "http_referer" [star (NOT_LITERAL dquote)];
      ATOM (LITERAL dquote); ATOM (plus s_) ] ++
  [ ATOM (LITERAL dquote); SUBPATTERN "http_user_agent" [star (NOT_LITERAL dquote)];
      ATOM (LITERAL dquote); ATOM (plus s_) ] ++
  [ SUBPATTERN "request_length" [plus S_]; ATOM (plus s_) ] ++
  [ SUBPATTERN "request_time" [plus S_]; ATOM (plus s_) ] ++
  [ SUBPATTERN "upstream_name"
      [LITERAL lbracket; star (NOT_LITERAL rbracket); LITERAL rbracket];
      ATOM (plus s_) ] ++
  [ SUBPATTERN "upstream_other"
      [LITERAL lbracket; star (NOT_LITERAL rbracket); LITERAL rbracket];
      ATOM (plus s_) ] ++
  [ SUBPATTERN "upstream_addr" [plus S_]; ATOM (plus s_) ] ++
  [ SUBPATTERN "upstream_response_length" [plus S_]; ATOM (plus s_) ] ++
  [ SUBPATTERN "upstream_response_time" [plus S_]; ATOM (plus s_) ] ++
  [ SUBPATTERN "upstream_status" [plus S_]; ATOM (plus s_) ] ++
  [ SUBPATTERN "request_id" [plus S_]; ATOM (star s_); ATOM AT_END ].

(** ** The compiled pattern and the matching engine *)

(** Group [g] (numbered from 1) owns the marks [2(g-1)] and [2(g-1)+1]. *)
Inductive op :=
| OP (a : atom)
| MARK (i : nat).

Fixpoint compile (g : nat) (p : list item) : list op :=
  match p with
  | [] => []
  | ATOM a :: p' => OP a :: compile g p'
  | SUBPATTERN _ body :: p' =>
      MARK (2 * g) :: map OP body ++ MARK (2 * g + 1) :: compile (S g) p'
  end.

(** [Pattern.groupindex]: the number of a named group. *)
Fixpoint groupindex (g : nat) (p : list item) (name : string) : option nat :=
  match p with
  | [] => None
  | ATOM _ :: p' => groupindex g p' name
  | SUBPATTERN n _ :: p' =>
      if String.eqb n name then Some (S g) else groupindex (S g) p' name
  end.

Fixpoint groups (p : list item) : nat :=
  match p with
  | [] => 0
  | ATOM _ :: p' => groups p'
  | SUBPATTERN _ _ :: p' => S (groups p')
  end.

(** A pointer into the subject is the suffix it points at. *)
Definition ptr := str.
Definition marks := list (option ptr).

(** [SRE(count)]: how many characters at [s] are in the set, at most [hi]. *)
Fixpoint sre_count (cs : charset) (hi : option nat) (s : ptr) : nat :=
  match hi, s with
  | Some 0, _ => 0
  | _, [] => 0
  | _, c :: s' =>
      if in_charset cs c
      then S (sre_count cs (pred <$> hi) s')
      else 0
  end.

(** The tail of a greedy repeat: try the rest of the pattern after [n]
    characters, then after [n-1], ..., down to [lo]. *)
Fixpoint backtrack {A} (tail : ptr -> option A) (s : ptr) (lo n : nat) : option A :=
  if n <? lo then None
  else match tail (drop n s) with
       | Some r => Some r
       | None =>
           match n with
           | 0 => None
           | S n' => backtrack tail s lo n'
           end
       end.

Definition at_end (s : ptr) : bool :=
  match s with
  | [] => true
  | [c] => (c =? 0x0a)%N
  | _ => false
  end.

(** [SRE(match)] on the compiled pattern: [start] is the beginning of the
    subject, [s] the current pointer; two pointers into the subject are the
    same when as much of it is left at both. *)
Fixpoint sre_match (code : list op) (start s : ptr) (mk : marks) : option marks :=
  match code with
  | [] => Some mk
  | MARK i :: code' => sre_match code' start s (<[i := Some s]> mk)
  | OP AT_BEGINNING :: code' =>
      if length s =? length start then sre_match code' start s mk else None
  | OP AT_END :: code' =>
      if at_end s then sre_match code' start s mk else None
  | OP (LITERAL c) :: code' =>
      match s with
      | x :: s' => if (x =? c)%N then sre_match code' start s' mk else None
      | [] => None
      end
  | OP (MAX_REPEAT lo hi cs) :: code' =>
      backtrack (fun s' => sre_match code' start s' mk) s lo (sre_count cs hi s)
  end.

(** A match object: the subject and the marks. *)
Record Match := { m_string : str; m_pattern : list item; m_marks : marks }.

(** [Pattern.match(string)]. *)
Definition re_match (p : list item) (string : str) : option Match :=
  mk ← sre_match (compile 0 p) string string (replicate (2 * groups p) None);
  Some {| m_string := string; m_pattern := p; m_marks := mk |}.

(** The text between two pointers into the same subject. *)
Definition between (b e : ptr) : str := take (length b - length e) b.

(** [Match.group(name)]; [None] where Python raises [IndexError] or returns
    [None] for a group that took no part in the match. *)
Definition group (m : Match) (name : string) : option str :=
  g ← groupindex 0 (m_pattern m) name;
  b ← mjoin (m_marks m !! (2 * (g - 1)));
  e ← mjoin (m_marks m !! (2 * (g - 1) + 1));
  Some (between b e).


(** The line of the specification's example. *)
Definition example_line : str :=
  u "127.0.0.1 - - [10/Oct/2023:13:55:36 +0000] " ++
  [dquote] ++ u "GET /index.html HTTP/1.1" ++ [dquote] ++ u " 200 612 " ++
  [dquote] ++ u "-" ++ [dquote] ++ u " " ++
  [dquote] ++ u "curl/7.68.0" ++ [dquote] ++
  u " 123 0.002 [-] [-] - - - - abc123".

(** ** Exceptions *)

(** What Python says of a file whose lines do not nest; the fourth is the
    message of [TabError]. *)
Inductive IndentationError_msg :=
| unexpected_indent
| expected_an_indented_block
| unindent_does_not_match
| inconsistent_tabs
| too_many_levels.

(** [Exception] stands for the errors of the library calls ([OSError] and
    its kin, [ValueError], [UnicodeDecodeError]), by the name of the class. *)
Inductive exn :=
| SyntaxError (lineno : nat)
| IndentationError (msg : IndentationError_msg) (lineno : nat)
| CalledProcessError (returncode : Z) (cmd : list str) (output stderr : option str)
| Exception (name : string).

(** Code that computes a value or raises. *)
Definition Exc (A : Type) : Type := exn + A.

#[global] Instance Exc_ret : MRet Exc := fun _ a => inr a.
#[global] Instance Exc_bind : MBind Exc := fun _ _ f x =>
  match x with
  | inl e => inl e
  | inr a => f a
  end.

(** ** The file *)

(** [src/parse_nginx_log.py], line by line as the file has it, with [~]
    for the double quote. *)
Definition parse_nginx_log_py : list string :=
  [
    (*   1 *) "#!/usr/bin/env python3";
    (*   2 *) "import argparse";
    (*   3 *) "import csv";
    (*   4 *) "import os";
    (*   5 *) "import re";
    (*   6 *) "import subprocess";
    (*   7 *) "from datetime import datetime";
    (*   8 *) EmptyString;
    (*   9 *) "# Regex for nginx ~combined~ access log:";
    (*  10 *) "# $remote_addr - $remote_user [$time_local] ~$request~ $status $body_bytes_sent ~$http_referer~ ~$http_user_agent~";
    (*  11 *) "LOG_RE = re.compile(";
    (*  12 *) "    r'^(?P<remote_addr>\S+)\s+\S+\s+(?P<remote_user>\S+)\s+'";
    (*  13 *) "    r'\[(?P<time_local>[^\]]+)\]\s+'";
    (*  14 *) "    r'~(?P<request>[^~]*)~\s+'";
    (*  15 *) "    r'(?P<status>\d{3})\s+'";
    (*  16 *) "    r'(?P<body_bytes_sent>\S+)\s+'";
    (*  17 *) "    r'~(?P<http_referer>[^~]*)~\s+'";
    (*  18 *) "    r'~(?P<http_user_agent>[^~]*)~\s+'";
    (*  19 *) "    r'(?P<request_length>\S+)\s+'";
    (*  20 *) "    r'(?P<request_time>\S+)\s+'";
    (*  21 *) "    r'(?P<upstream_name>\[[^\]]*\])\s+'";
    (*  22 *) "    r'(?P<upstream_other>\[[^\]]*\])\s+'";
    (*  23 *) "    r'(?P<upstream_addr>\S+)\s+'";
    (*  24 *) "    r'(?P<upstream_response_length>\S+)\s+'";
    (*  25 *) "    r'(?P<upstream_response_time>\S+)\s+'";
    (*  26 *) "    r'(?P<upstream_status>\S+)\s+'";
    (*  27 *) "    r'(?P<request_id>\S+)\s*$'";
    (*  28 *) ")";
    (*  29 *) EmptyString;
    (*  30 *) EmptyString;
    (*  31 *) "def parse_args():";
    (*  32 *) "    p = argparse.ArgumentParser(description=~Parse nginx access log to CSV and commit to Git.~)";
    (*  33 *) "    p.add_argument(~--log~, required=True, help=~Path to nginx access.log~)";
    (*  34 *) "    p.add_argument(~--out~, required=True, help=~Output CSV file path~)";
    (*  35 *) "    p.add_argument(~--repo~, default=~.~, help=~Path to git repo (default: current dir)~)";
    (*  36 *) "    p.add_argument(~--commit~, action=~store_true~, help=~Commit CSV to git~)";
    (*  37 *) "    p.add_argument(~--message~, default=~~, help=~Commit message (optional)~)";
    (*  38 *) "    return p.parse_args()";
    (*  39 *) EmptyString;
    (*  40 *) "def ensure_parent_dir(path: str):";
    (*  41 *) "    parent = os.path.dirname(os.path.abspath(path))";
    (*  42 *) "    if parent and not os.path.exists(parent):";
    (*  43 *) "        os.makedirs(parent, exist_ok=True)";
    (*  44 *) EmptyString;
    (*  45 *) "def git(cmd, repo):";
    (*  46 *) "    return subprocess.run([~git~, ~-C~, repo] + cmd, check=True, text=True, capture_output=True)";
    (*  47 *) EmptyString;
    (*  48 *) "def main():";
    (*  49 *) "    args = parse_args()";
    (*  50 *) EmptyString;
    (*  51 *) "    if not os.path.isfile(args.log):";
    (*  52 *) "        raise SystemExit(f~Log file not found: {args.log}~)";
    (*  53 *) EmptyString;
    (*  54 *) "    ensure_parent_dir(args.out)";
    (*  55 *) EmptyString;
    (*  56 *) "    rows_written = 0";
    (*  57 *) "    with open(args.log, ~r~, encoding=~utf-8~, errors=~replace~) as f_in, \";
    (*  58 *) "         open(args.out, ~w~, newline=~~, encoding=~utf-8~) as f_out:";
    (*  59 *) EmptyString;
    (*  60 *) "        writer = csv.writer(f_out)";
    (*  61 *) "writer.writerow([";
    (*  62 *) "    ~remote_addr~,";
    (*  63 *) "    ~remote_user~,";
    (*  64 *) "    ~time_local~,";
    (*  65 *) "    ~method~,";
    (*  66 *) "    ~path~,";
    (*  67 *) "    ~protocol~,";
    (*  68 *) "    ~status~,";
    (*  69 *) "    ~body_bytes_sent~,";
    (*  70 *) "    ~http_referer~,";
    (*  71 *) "    ~http_user_agent~,";
    (*  72 *) "    ~request_length~,";
    (*  73 *) "    ~request_time~,";
    (*  74 *) "    ~upstream_name~,";
    (*  75 *) "    ~upstream_other~,";
    (*  76 *) "    ~upstream_addr~,";
    (*  77 *) "    ~upstream_response_length~,";
    (*  78 *) "    ~upstream_response_time~,";
    (*  79 *) "    ~upstream_status~,";
    (*  80 *) "    ~request_id~,";
    (*  81 *) "])";
    (*  82 *) EmptyString;
    (*  83 *) "        for line in f_in:";
    (*  84 *) "            line = line.rstrip(~\n~)";
    (*  85 *) "            m = LOG_RE.match(line)";
    (*  86 *) "            if not m:";
    (*  87 *) "                # skip lines that don't match; could also log them to a file";
    (*  88 *) "                continue";
    (*  89 *) EmptyString;
    (*  90 *) "            request = m.group(~request~)";
    (*  91 *) "            # request looks like: ~GET /some/path HTTP/1.1~";
    (*  92 *) "            parts = request.split(~ ~, 2)";
    (*  93 *) "            method, path, protocol = (parts + [~~, ~~, ~~])[:3]";
    (*  94 *) EmptyString;
    (*  95 *) "writer.writerow([";
    (*  96 *) "    m.group(~remote_addr~),";
    (*  97 *) "    m.group(~remote_user~),";
    (*  98 *) "    m.group(~time_local~),";
    (*  99 *) "    method,";
    (* 100 *) "    path,";
    (* 101 *) "    protocol,";
    (* 102 *) "    m.group(~status~),";
    (* 103 *) "    m.group(~body_bytes_sent~),";
    (* 104 *) "    m.group(~http_referer~),";
    (* 105 *) "    m.group(~http_user_agent~),";
    (* 106 *) "    m.group(~request_length~),";
    (* 107 *) "    m.group(~request_time~),";
    (* 108 *) "    m.group(~upstream_name~),";
    (* 109 *) "    m.group(~upstream_other~),";
    (* 110 *) "    m.group(~upstream_addr~),";
    (* 111 *) "    m.group(~upstream_response_length~),";
    (* 112 *) "    m.group(~upstream_response_time~),";
    (* 113 *) "    m.group(~upstream_status~),";
    (* 114 *) "    m.group(~request_id~),";
    (* 115 *) "])";
    (* 116 *) EmptyString;
    (* 117 *) "            rows_written += 1";
    (* 118 *) EmptyString;
    (* 119 *) "    print(f~✅ CSV saved: {args.out} (rows: {rows_written})~)";
    (* 120 *) EmptyString;
    (* 121 *) "    if args.commit:";
    (* 122 *) "        # Basic git checks";
    (* 123 *) "        git([~rev-parse~, ~--is-inside-work-tree~], args.repo)";
    (* 124 *) EmptyString;
    (* 125 *) "        # Add and commit";
    (* 126 *) "        git([~add~, os.path.relpath(args.out, start=args.repo)], args.repo)";
    (* 127 *) EmptyString;
    (* 128 *) "        msg = args.message.strip()";
    (* 129 *) "        if not msg:";
    (* 130 *) "            now = datetime.now().strftime(~%Y-%m-%d %H:%M~)";
    (* 131 *) "            msg = f~Update nginx CSV export ({now})~";
    (* 132 *) EmptyString;
    (* 133 *) "        # Only commit if there are changes";
    (* 134 *) "        diff = subprocess.run(";
    (* 135 *) "            [~git~, ~-C~, args.repo, ~diff~, ~--cached~, ~--quiet~]";
    (* 136 *) "        )";
    (* 137 *) "        if diff.returncode == 0:";
    (* 138 *) "            print(~ℹ️ No changes to commit.~)";
    (* 139 *) "        else:";
    (* 140 *) "            git([~commit~, ~-m~, msg], args.repo)";
    (* 141 *) "            print(~✅ Committed to Git.~)";
    (* 142 *) EmptyString;
    (* 143 *) "if __name__ == ~__main__~:";
    (* 144 *) "    main()"
  ]%string.

(** ** The layout of a Python file

    Python reads a file into logical lines and blocks before it runs any of
    it (the tokenizer of CPython, [Parser/tokenizer.c], and the rule of the
    grammar that a block follows a colon and nothing else). A physical line
    inside brackets, inside a triple-quoted string or after a backslash
    continues the logical line; a blank line and a line with a comment only
    are passed over; any other line starts a logical line, and its
    indentation is held against the stack of the open blocks. *)

Definition double_quote : ascii := ascii_of_nat 34.
Definition backslash : ascii := ascii_of_nat 92.
Definition tab : ascii := ascii_of_nat 9.
Definition form_feed : ascii := ascii_of_nat 12.

(** A line of the file as the table above writes it: [~] stands for the
    double quote. *)
Definition text (s : string) : list ascii :=
  map (fun c => if (c =? "~")%char then double_quote else c)
      (list_ascii_of_string s).

(** Where the tokenizer is between two characters: in code, in a string
    literal, in a triple-quoted one. *)
Inductive mode := Code | Quoted (q : ascii) | Triple (q : ascii).

Definition is_quote (c : ascii) : bool :=
  (c =? "'")%char || (c =? double_quote)%char.

Definition opening (c : ascii) : bool :=
  (c =? "(")%char || (c =? "[")%char || (c =? "{")%char.

Definition closing (c : ascii) : bool :=
  (c =? ")")%char || (c =? "]")%char || (c =? "}")%char.

Definition blank (c : ascii) : bool :=
  (c =? " ")%char || (c =? tab)%char || (c =? form_feed)%char.

(** The rest [s] of a physical line is read in mode [m] at bracket depth
    [depth]; [colon] says that the last token read is a colon. The result is
    the mode and the depth at the end of the line, whether the last token is
    a colon, and whether the line ends with a backslash that joins it to the
    next. [None]: the line is refused for a reason that is not its layout (a
    string that does not end, a bracket that was not opened, a stray
    backslash). *)
Fixpoint scan (s : list ascii) (m : mode) (depth : nat) (colon : bool)
  : option (mode * nat * bool * bool) :=
  match s with
  | [] =>
      match m with
      | Quoted _ => None
      | _ => Some (m, depth, colon, false)
      end
  | c :: rest =>
      match m with
      | Code =>
          if (c =? "#")%char then Some (Code, depth, colon, false)
          else if blank c then scan rest Code depth colon
          else if (c =? backslash)%char then
            match rest with
            | [] => Some (Code, depth, colon, true)
            | _ => None
            end
          else if is_quote c then
            match rest with
            | c1 :: c2 :: rest' =>
                if (c1 =? c)%char && (c2 =? c)%char
                then scan rest' (Triple c) depth false
                else scan rest (Quoted c) depth false
            | _ => scan rest (Quoted c) depth false
            end
          else if opening c then scan rest Code (S depth) false
          else if closing c then
            match depth with
            | 0 => None
            | S d => scan rest Code d false
            end
          else scan rest Code depth (c =? ":")%char
      | Quoted q =>
          if (c =? backslash)%char then
            match rest with
            | [] => Some (Quoted q, depth, false, true)
            | _ :: rest' => scan rest' (Quoted q) depth false
            end
          else if (c =? q)%char then scan rest Code depth false
          else scan rest (Quoted q) depth false
      | Triple q =>
          if (c =? backslash)%char then
            match rest with
            | [] => Some (Triple q, depth, false, false)
            | _ :: rest' => scan rest' (Triple q) depth false
            end
          else if (c =? q)%char then
            match rest with
            | c1 :: c2 :: rest' =>
                if (c1 =? q)%char && (c2 =? q)%char
                then scan rest' Code depth false
                else scan rest (Triple q) depth false
            | _ => scan rest (Triple q) depth false
            end
          else scan rest (Triple q) depth false
      end
  end.

(** The column of the first character of a line that is no blank, counted
    twice, and the line from there: with a tab going to the next multiple of
    8, and with a tab counting as one column; a form feed goes back to 0. *)
Fixpoint indentation (col altcol : nat) (s : list ascii)
  : nat * nat * list ascii :=
  match s with
  | c :: rest =>
      if (c =? " ")%char then indentation (S col) (S altcol) rest
      else if (c =? tab)%char
      then indentation ((col / 8 + 1) * 8) (S altcol) rest
      else if (c =? form_feed)%char then indentation 0 0 rest
      else (col, altcol, s)
  | [] => (col, altcol, [])
  end.

(** The state of the tokenizer between two physical lines. [indents] is the
    stack of the indentations of the open blocks, each with its two counts,
    the innermost first, the outermost, 0, left out; [opens] says that the
    last logical line ended with a colon and so opens a block. *)
Record tokenizer := {
  tok_mode : mode;
  depth : nat;
  colon : bool;
  joined : bool;
  opens : bool;
  indents : list (nat * nat);
}.

Definition tok_start : tokenizer :=
  {| tok_mode := Code; depth := 0; colon := false; joined := false;
     opens := false; indents := [] |}.

(** The line that comes continues the logical line. *)
Definition continues (t : tokenizer) : bool :=
  match tok_mode t with
  | Code => (0 <? depth t) || joined t
  | _ => true
  end.

Definition MAXINDENT : nat := 100.

(** The blocks left open by a line at column [col]: all those indented
    further are closed, and [col] must be the indentation of one that is
    open, by both counts. *)
Fixpoint dedent (col altcol : nat) (indents : list (nat * nat))
  : IndentationError_msg + list (nat * nat) :=
  let same (alt : nat) (l : list (nat * nat)) :=
    if altcol =? alt then inr l else inl inconsistent_tabs in
  match indents with
  | (top, alt) :: below =>
      if col <? top then dedent col altcol below
      else if col =? top then same alt indents
      else inl unindent_does_not_match
  | [] =>
      if col =? 0 then same 0 [] else inl unindent_does_not_match
  end.

(** A logical line starts at column [col] of line [lineno]: deeper than the
    block it is in only where a block is opened, and there it must be. *)
Definition start_of_line (lineno col altcol : nat) (t : tokenizer)
  : Exc (list (nat * nat)) :=
  let '(top, alt) := hd (0, 0) (indents t) in
  if top <? col then
    if MAXINDENT <=? S (length (indents t))
    then inl (IndentationError too_many_levels lineno)
    else if altcol <=? alt then inl (IndentationError inconsistent_tabs lineno)
    else if opens t then inr ((col, altcol) :: indents t)
    else inl (IndentationError unexpected_indent lineno)
  else
    match dedent col altcol (indents t) with
    | inl msg => inl (IndentationError msg lineno)
    | inr l =>
        if opens t then inl (IndentationError expected_an_indented_block lineno)
        else inr l
    end.

Definition after_scan (lineno : nat) (l : list (nat * nat))
    (r : option (mode * nat * bool * bool)) : Exc tokenizer :=
  match r with
  | None => inl (SyntaxError lineno)
  | Some (m, d, c, j) =>
      let t := {| tok_mode := m; depth := d; colon := c; joined := j;
                  opens := false; indents := l |} in
      inr {| tok_mode := m; depth := d; colon := c; joined := j;
             opens := negb (continues t) && c; indents := l |}
  end.

(** One physical line: a line that continues a logical line is read on; a
    line that is blank or holds a comment only is passed over; any other
    line starts a logical line. *)
Definition physical_line (lineno : nat) (s : list ascii) (t : tokenizer)
  : Exc tokenizer :=
  if continues t
  then after_scan lineno (indents t) (scan s (tok_mode t) (depth t) (colon t))
  else
    let '(col, altcol, rest) := indentation 0 0 s in
    match rest with
    | [] => inr t
    | c :: _ =>
        if (c =? "#")%char then inr t
        else
          l ← start_of_line lineno col altcol t;
          after_scan lineno l (scan rest Code 0 false)
    end.

Fixpoint tokenize (lineno : nat) (lines : list (list ascii)) (t : tokenizer)
  : Exc tokenizer :=
  match lines with
  | [] => inr t
  | s :: rest => t' ← physical_line lineno s t; tokenize (S lineno) rest t'
  end.

(** The error Python finds in the layout of a file, if it finds one: an
    error of indentation with its line, or [SyntaxError] for a logical line
    that does not end or cannot be read. [None] says that the layout is
    accepted; the grammar of the statements is not looked at. Format
    strings are read as strings are, as Python does up to 3.11; the file has
    none whose fields hold a quote or a bracket. *)
Definition layout (file : list string) : option exn :=
  match tokenize 1 (map text file) tok_start with
  | inl e => Some e
  | inr t =>
      if continues t then Some (SyntaxError (length file))
      else if opens t
      then Some (IndentationError expected_an_indented_block (length file))
      else None
  end.

(** ** The operating system *)

(** What a child process does: its exit status and what it writes. *)
Record Child := { exit_status : Z; child_stdout : str; child_stderr : str }.

(** The directories and the programs the helpers reach, over a state of the
    machine [W]. [os_path_abspath] raises where [os.getcwd] does;
    [os_makedirs] is [os.makedirs(path, exist_ok=True)], which raises where a
    directory cannot be made and may have made some before it does;
    [os_path_exists] raises nothing. [exec argv capture] starts the program
    [argv] and waits for it, with its output captured as text or not; it
    raises where the program cannot be started or its output not be
    decoded. *)
Class Env (W : Type) := {
  os_path_abspath : str -> W -> Exc str;
  os_path_dirname : str -> str;
  os_path_exists : str -> W -> bool;
  os_makedirs : str -> W -> Exc unit * W;
  exec : list str -> bool -> W -> Exc Child * W;
}.

(** The machine, what the script printed, what its children wrote on the
    streams they inherited, and the commands it ran with what each did,
    oldest first. *)
Record State (W : Type) := {
  world : W;
  stdout : list str;
  inherited : list str;
  calls : list (list str * Child);
}.
Arguments world {W}. Arguments stdout {W}.
Arguments inherited {W}. Arguments calls {W}.

Inductive result (W A : Type) :=
| Ok (a : A) (st : State W)
| Raise (e : exn) (st : State W).
Arguments Ok {W A}. Arguments Raise {W A}.

Definition M (W A : Type) : Type := State W -> result W A.


Definition raise {W A} (e : exn) : M W A := fun st => Raise e st.






Definition state_of {W A} (r : result W A) : State W :=
  match r with
  | Ok _ st => st
  | Raise _ st => st
  end.

Definition raised {W A} (r : result W A) : option exn :=
  match r with
  | Ok _ _ => None
  | Raise e _ => Some e
  end.

(** A run starts with nothing printed and nothing called. *)
Definition start {W} (w : W) : State W :=
  {| world := w; stdout := []; inherited := []; calls := [] |}.

(** [python3 file ...]: Python compiles the file whole before it runs the
    first of its statements. A file it refuses runs nothing: the error is
    raised on the machine as it was found. [statements] is what the
    statements of the file do once the file is compiled; of the compilation
    the layout alone is modelled. *)
Definition python3 {W A} (file : list string) (statements : M W A) : M W A :=
  match layout file with
  | Some e => raise e
  | None => statements
  end.

Section Program.
Context {W : Type} `{Env W}.



End Program.

(** ** What a match is *)

Definition upto (hi : option nat) (n : nat) : Prop :=
  match hi with
  | Some h => n <= h
  | None => True
  end.

(** [w] is a run the repeat [MAX_REPEAT lo hi cs] may take. *)
Definition run_of (lo : nat) (hi : option nat) (cs : charset) (w : str) : Prop :=
  forallb (in_charset cs) w = true /\ lo <= length w /\ upto hi (length w).

(** One way of matching the compiled pattern at [s], without the order in
    which the engine tries them: the marks it leaves are [mk']. *)
Fixpoint sem (code : list op) (start s : ptr) (mk mk' : marks) : Prop :=
  match code with
  | [] => mk' = mk
  | MARK i :: code' => sem code' start s (<[i := Some s]> mk) mk'
  | OP AT_BEGINNING :: code' =>
      length s = length start /\ sem code' start s mk mk'
  | OP AT_END :: code' =>
      (s = [] \/ s = [0x0a%N]) /\ sem code' start s mk mk'
  | OP (LITERAL c) :: code' =>
      exists s', s = c :: s' /\ sem code' start s' mk mk'
  | OP (MAX_REPEAT lo hi cs) :: code' =>
      exists w s', s = w ++ s' /\ run_of lo hi cs w /\ sem code' start s' mk mk'
  end.

(** ** The grammar of a log line

    What [LOG_RE] describes, piece by piece: the fields and the whitespace
    between them. [ident] is the token after the address (a dash in nginx's
    format), [upstream_name] and [upstream_other] are what stands between
    the brackets. *)
Module Grammar.
Record t := {
  remote_addr : str; ws1 : str;
  ident : str; ws2 : str;
  remote_user : str; ws3 : str;
  time_local : str; ws4 : str;
  request : str; ws5 : str;
  status : str; ws6 : str;
  body_bytes_sent : str; ws7 : str;
  http_referer : str; ws8 : str;
  http_user_agent : str; ws9 : str;
  request_length : str; ws10 : str;
  request_time : str; ws11 : str;
  upstream_name : str; ws12 : str;
  upstream_other : str; ws13 : str;
  upstream_addr : str; ws14 : str;
  upstream_response_length : str; ws15 : str;
  upstream_response_time : str; ws16 : str;
  upstream_status : str; ws17 : str;
  request_id : str; ws18 : str;
}.

(** A non-empty run without whitespace, a non-empty run of whitespace. *)
Definition token (w : str) : Prop := run_of 1 None (IN CATEGORY_NOT_SPACE) w.
Definition space (w : str) : Prop := run_of 1 None (IN CATEGORY_SPACE) w.
Definition without (c : N) (lo : nat) (w : str) : Prop :=
  run_of lo None (NOT_LITERAL c) w.

Definition bracketed (w : str) : str := lbracket :: w ++ [rbracket].
Definition quoted (w : str) : str := dquote :: w ++ [dquote].

(** The text after the closing quote of the user agent. *)
Definition tail (p : t) : str :=
  ws9 p ++ request_length p ++ ws10 p ++ request_time p ++ ws11 p ++
  bracketed (upstream_name p) ++ ws12 p ++
  bracketed (upstream_other p) ++ ws13 p ++
  upstream_addr p ++ ws14 p ++ upstream_response_length p ++ ws15 p ++
  upstream_response_time p ++ ws16 p ++ upstream_status p ++ ws17 p ++
  request_id p ++ ws18 p.

Definition render (p : t) : str :=
  remote_addr p ++ ws1 p ++ ident p ++ ws2 p ++ remote_user p ++ ws3 p ++
  bracketed (time_local p) ++ ws4 p ++
  quoted (request p) ++ ws5 p ++
  status p ++ ws6 p ++
  body_bytes_sent p ++ ws7 p ++
  quoted (http_referer p) ++ ws8 p ++
  quoted (http_user_agent p) ++ tail p.

Definition wf_head (p : t) : Prop :=
  token (remote_addr p) /\ space (ws1 p) /\
  token (ident p) /\ space (ws2 p) /\
  token (remote_user p) /\ space (ws3 p) /\
  without rbracket 1 (time_local p) /\ space (ws4 p) /\
  without dquote 0 (request p) /\ space (ws5 p) /\
  run_of 3 (Some 3) (IN CATEGORY_DIGIT) (status p) /\ space (ws6 p) /\
  token (body_bytes_sent p) /\ space (ws7 p) /\
  without dquote 0 (http_referer p) /\ space (ws8 p) /\
  without dquote 0 (http_user_agent p).

Definition wf_tail (p : t) : Prop :=
  space (ws9 p) /\
  token (request_length p) /\ space (ws10 p) /\
  token (request_time p) /\ space (ws11 p) /\
  without rbracket 0 (upstream_name p) /\ space (ws12 p) /\
  without rbracket 0 (upstream_other p) /\ space (ws13 p) /\
  token (upstream_addr p) /\ space (ws14 p) /\
  token (upstream_response_length p) /\ space (ws15 p) /\
  token (upstream_response_time p) /\ space (ws16 p) /\
  token (upstream_status p) /\ space (ws17 p) /\
  token (request_id p) /\
  run_of 0 None (IN CATEGORY_SPACE) (ws18 p).

Definition wf (p : t) : Prop := wf_head p /\ wf_tail p.

(** The text of each named group. *)
Definition groups (p : t) : list (string * str) :=
  [ ("remote_addr", remote_addr p);
    ("remote_user", remote_user p);
    ("time_local", time_local p);
    ("request", request p);
    ("status", status p);
    ("body_bytes_sent", body_bytes_sent p);
    ("http_referer", http_referer p);
    ("http_user_agent", http_user_agent p);
    ("request_length", request_length p);
    ("request_time", request_time p);
    ("upstream_name", bracketed (upstream_name p));
    ("upstream_other", bracketed (upstream_other p));
    ("upstream_addr", upstream_addr p);
    ("upstream_response_length", upstream_response_length p);
    ("upstream_response_time", upstream_response_time p);
    ("upstream_status", upstream_status p);
    ("request_id", request_id p) ].

(** [m] is the match of a line read as [p]. *)
Definition captures (m : Match) (p : t) : Prop :=
  Forall (fun g => group m g.1 = Some g.2) (groups p).
End Grammar.

(** [Match.end(name)]: the pointer after the group. *)
Definition Match_end (m : Match) (name : string) : option ptr :=
  g ← groupindex 0 (m_pattern m) name;
  mjoin (m_marks m !! (2 * (g - 1) + 1)).

(** [s.split()]: the fields between runs of whitespace. *)
Fixpoint fields (s : str) : list str :=
  match s with
  | [] => []
  | c :: s' =>
      if Py_UNICODE_ISSPACE c then fields s'
      else match s' with
           | [] => [[c]]
           | c' :: _ =>
               if Py_UNICODE_ISSPACE c' then [c] :: fields s'
               else match fields s' with
                    | w :: ws => (c :: w) :: ws
                    | [] => [[c]]
                    end
           end
  end.

(** ** Lines for the pattern *)

(** The example with another token for the first dash and a user. *)
Definition line_without_dash : str :=
  u "127.0.0.1 x bob [10/Oct/2023:13:55:36 +0000] " ++
  [dquote] ++ u "GET /index.html HTTP/1.1" ++ [dquote] ++ u " 200 612 " ++
  [dquote] ++ u "-" ++ [dquote] ++ u " " ++
  [dquote] ++ u "curl/7.68.0" ++ [dquote] ++
  u " 123 0.002 [-] [-] - - - - abc123".

(** The compiled form of [LOG_RE]. *)
Definition LOG_RE_code : list op := Eval vm_compute in compile 0 LOG_RE.

(** The example with a request of two tokens. *)
Definition line_with_short_request : str :=
  u "127.0.0.1 - - [10/Oct/2023:13:55:36 +0000] " ++
  [dquote] ++ u "GET /index.html" ++ [dquote] ++ u " 200 612 " ++
  [dquote] ++ u "-" ++ [dquote] ++ u " " ++
  [dquote] ++ u "curl/7.68.0" ++ [dquote] ++
  u " 123 0.002 [-] [-] - - - - abc123".

Definition not_a_log_line : str := u "not a log line".

(** A text that a run of the set [cs] cannot go on into. *)
Definition stops (cs : charset) (r : str) : Prop :=
  match r with
  | [] => True
  | c :: _ => in_charset cs c = false
  end.

(** No character of [cs'] is in [cs]. *)
Definition apart (cs cs' : charset) : Prop :=
  forall c, in_charset cs' c = true -> in_charset cs c = false.

(** The same fields with other whitespace after the last. *)
Definition set_ws18 (w : str) (p : Grammar.t) : Grammar.t :=
  Grammar.Build_t
    (Grammar.remote_addr p) (Grammar.ws1 p) (Grammar.ident p) (Grammar.ws2 p)
    (Grammar.remote_user p) (Grammar.ws3 p) (Grammar.time_local p)
    (Grammar.ws4 p) (Grammar.request p) (Grammar.ws5 p) (Grammar.status p)
    (Grammar.ws6 p) (Grammar.body_bytes_sent p) (Grammar.ws7 p)
    (Grammar.http_referer p) (Grammar.ws8 p) (Grammar.http_user_agent p)
    (Grammar.ws9 p) (Grammar.request_length p) (Grammar.ws10 p)
    (Grammar.request_time p) (Grammar.ws11 p) (Grammar.upstream_name p)
    (Grammar.ws12 p) (Grammar.upstream_other p) (Grammar.ws13 p)
    (Grammar.upstream_addr p) (Grammar.ws14 p)
    (Grammar.upstream_response_length p) (Grammar.ws15 p)
    (Grammar.upstream_response_time p) (Grammar.ws16 p)
    (Grammar.upstream_status p) (Grammar.ws17 p) (Grammar.request_id p) w.

(** [P] holds of the [n] code points from [c] on. *)
Fixpoint all_from (P : N -> bool) (c : N) (n : nat) : bool :=
  match n with
  | 0 => true
  | S n' => P c && all_from P (N.succ c) n'
  end.

(** The fields of the example line. *)
Definition example_fields : Grammar.t :=
  Grammar.Build_t
    (u "127.0.0.1") (u " ") (u "-") (u " ") (u "-") (u " ")
    (u "10/Oct/2023:13:55:36 +0000") (u " ")
    (u "GET /index.html HTTP/1.1") (u " ")
    (u "200") (u " ") (u "612") (u " ") (u "-") (u " ")
    (u "curl/7.68.0") (u " ")
    (u "123") (u " ") (u "0.002") (u " ") (u "-") (u " ") (u "-") (u " ")
    (u "-") (u " ") (u "-") (u " ") (u "-") (u " ") (u "-") (u " ")
    (u "abc123") [].


(** The groups of [LOG_RE], and those among them that are a token. *)
Definition group_names : list string :=
  [ "remote_addr"; "remote_user"; "time_local"; "request"; "status";
    "body_bytes_sent"; "http_referer"; "http_user_agent"; "request_length";
    "request_time"; "upstream_name"; "upstream_other"; "upstream_addr";
    "upstream_response_length"; "upstream_response_time"; "upstream_status";
    "request_id" ]%string.

Definition token_groups : list string :=
  [ "remote_addr"; "remote_user"; "body_bytes_sent"; "request_length";
    "request_time"; "upstream_addr"; "upstream_response_length";
    "upstream_response_time"; "upstream_status"; "request_id" ]%string.

(** ** Runs of the file *)

(** The files of a directory, by name, with their text. *)
Definition disk : Type := gmap str str.

(** The directory of a run: the log, and no export yet. *)
Definition disk_with_log (log : str) : disk := {[ u "access.log" := log ]}.

(** The file with the lines [first] to [last] moved [n] columns to the
    right. *)
Definition indented (first last n : nat) (file : list string) : list string :=
  imap (fun i line =>
          if (first <=? S i) && (S i <=? last)
          then String.append (string_of_list_ascii (replicate n " "%char)) line
          else line) file.

(** ** A machine with directories

    Directories and files by their absolute paths in normal form, and the
    working directory if there still is one; no program can be started on
    it. [normpath], [join], [abspath] and [dirname] are those of
    [posixpath]; [makedirs] is [os.makedirs] with [exist_ok=True]. *)

Definition slash : N := 0x2f.
Definition dot : N := 0x2e.

(** [p.split('/')] *)
Fixpoint components (p : str) : list str :=
  match p with
  | [] => [[]]
  | c :: p' =>
      if (c =? slash)%N then [] :: components p'
      else match components p' with
           | w :: ws => (c :: w) :: ws
           | [] => [[c]]
           end
  end.

Fixpoint eqb_str (a b : str) : bool :=
  match a, b with
  | [], [] => true
  | x :: a', y :: b' => (x =? y)%N && eqb_str a' b'
  | _, _ => false
  end.

(** The loop of [normpath]: the components kept so far, the last first. *)
Fixpoint normpath_loop (rooted : bool) (kept : list str) (comps : list str)
  : list str :=
  match comps with
  | [] => kept
  | comp :: rest =>
      if eqb_str comp [] || eqb_str comp [dot]
      then normpath_loop rooted kept rest
      else if negb (eqb_str comp [dot; dot])
              || (negb rooted && bool_decide (kept = []))
              || eqb_str (hd [] kept) [dot; dot]
      then normpath_loop rooted (comp :: kept) rest
      else normpath_loop rooted (tl kept) rest
  end.

Fixpoint join_slash (comps : list str) : str :=
  match comps with
  | [] => []
  | [c] => c
  | c :: rest => c ++ slash :: join_slash rest
  end.

Definition initial_slashes (p : str) : nat :=
  match p with
  | a :: b :: c :: _ =>
      if (a =? slash)%N
      then if (b =? slash)%N && negb (c =? slash)%N then 2 else 1
      else 0
  | [a; b] =>
      if (a =? slash)%N then if (b =? slash)%N then 2 else 1 else 0
  | [a] => if (a =? slash)%N then 1 else 0
  | [] => 0
  end.

Definition normpath (p : str) : str :=
  let n := initial_slashes p in
  let body :=
    join_slash (reverse (normpath_loop (0 <? n) [] (components p))) in
  match replicate n slash ++ body with
  | [] => [dot]
  | q => q
  end.

(** [posixpath.join(a, b)] *)
Definition join (a b : str) : str :=
  match b with
  | c :: _ =>
      if (c =? slash)%N then b
      else match last a with
           | Some d => if (d =? slash)%N then a ++ b else a ++ slash :: b
           | None => b
           end
  | [] =>
      match last a with
      | Some d => if (d =? slash)%N then a else a ++ [slash]
      | None => []
      end
  end.

Fixpoint drop_slashes (r : str) : str :=
  match r with
  | c :: r' => if (c =? slash)%N then drop_slashes r' else r
  | [] => []
  end.

Fixpoint drop_name (r : str) : str :=
  match r with
  | c :: r' => if (c =? slash)%N then r else drop_name r'
  | [] => []
  end.

(** [posixpath.dirname]: the path up to its last slash, without the
    slashes at its end unless it is made of slashes. *)
Definition dirname (p : str) : str :=
  let head := drop_name (reverse p) in
  match drop_slashes head with
  | [] => reverse head
  | r => reverse r
  end.

Module Machine.
Record t := {
  dirs : gset str;
  files : gset str;
  cwd : option str;
}.

Definition exists_ (p : str) (m : t) : bool :=
  bool_decide (p ∈ dirs m) || bool_decide (p ∈ files m).

Definition abspath (p : str) (m : t) : Exc str :=
  match p with
  | c :: _ =>
      if (c =? slash)%N then inr (normpath p)
      else match cwd m with
           | Some d => inr (normpath (join d p))
           | None => inl (Exception "FileNotFoundError")
           end
  | [] =>
      match cwd m with
      | Some d => inr (normpath (join d p))
      | None => inl (Exception "FileNotFoundError")
      end
  end.

(** [os.mkdir] *)
Definition mkdir (name : str) (m : t) : Exc unit * t :=
  if exists_ name m then (inl (Exception "FileExistsError"), m)
  else if bool_decide (dirname name ∈ dirs m)
  then (inr tt, {| dirs := {[ name ]} ∪ dirs m; files := files m; cwd := cwd m |})
  else if bool_decide (dirname name ∈ files m)
  then (inl (Exception "NotADirectoryError"), m)
  else (inl (Exception "FileNotFoundError"), m).

(** [os.makedirs(name, exist_ok=True)]: the directories above [name] that
    are missing are made first, the outermost first; [fuel] bounds their
    number. *)
Fixpoint makedirs (fuel : nat) (name : str) (m : t) : Exc unit * t :=
  let head := dirname name in
  let above :=
    match fuel with
    | S n =>
        if negb (eqb_str head []) && negb (eqb_str head name)
           && negb (exists_ head m)
        then makedirs n head m
        else (inr tt, m)
    | 0 => (inr tt, m)
    end in
  match above with
  | (inl e, m1) => (inl e, m1)
  | (inr _, m1) =>
      match mkdir name m1 with
      | (inl e, m2) =>
          if bool_decide (name ∈ dirs m2) then (inr tt, m2) else (inl e, m2)
      | made => made
      end
  end.

#[global] Instance env : Env t := {|
  os_path_abspath := abspath;
  os_path_dirname := dirname;
  os_path_exists := exists_;
  os_makedirs name := makedirs (length name) name;
  exec _ _ m := (inl (Exception "FileNotFoundError"), m);
|}.
End Machine.


(** * The engine

    A match found is a match ([sre_match_sound]), and if a pattern can match
    the engine finds a match ([sre_match_complete]): the order in which the
    greedy repeats are tried decides which, never whether. *)

Lemma upto_pred hi n : upto hi (S n) -> upto (pred <$> hi) n.
Proof. destruct hi as [h|]; simpl; [lia | done]. Qed.

Lemma upto_succ hi n : upto (pred <$> hi) n -> hi <> Some 0 -> upto hi (S n).
Proof. destruct hi as [[|h]|]; simpl; try done; lia. Qed.

Lemma sre_count_take cs hi s j :
  j <= sre_count cs hi s ->
  forallb (in_charset cs) (take j s) = true /\ upto hi j /\ j <= length s.
Proof.
  revert hi j. induction s as [|c s IH]; intros hi j Hj.
  - assert (sre_count cs hi [] = 0) as E by (destruct hi as [[|?]|]; done).
    rewrite E in Hj. assert (j = 0) as -> by lia.
    repeat split; simpl; [destruct hi; simpl; lia | lia].
  - destruct j as [|j].
    { repeat split; simpl; [destruct hi; simpl; lia | lia]. }
    assert (hi <> Some 0) as Hhi.
    { intros ->. simpl in Hj. lia. }
    assert (sre_count cs hi (c :: s) =
            if in_charset cs c then S (sre_count cs (pred <$> hi) s) else 0) as E.
    { destruct hi as [[|?]|]; done. }
    rewrite E in Hj. destruct (in_charset cs c) eqn:Hc; [|lia].
    destruct (IH (pred <$> hi) j) as (Ha & Hb & Hl); [lia|].
    simpl. rewrite Hc, Ha. repeat split; [by apply upto_succ | lia].
Qed.

Lemma sre_count_max cs hi w s :
  forallb (in_charset cs) w = true -> upto hi (length w) ->
  length w <= sre_count cs hi (w ++ s).
Proof.
  revert hi. induction w as [|c w IH]; intros hi Hw Hhi; simpl length; [lia|].
  simpl in Hw. apply andb_prop in Hw as [Hc Hw].
  assert (hi <> Some 0) as Hne.
  { intros ->. simpl in Hhi. lia. }
  assert (sre_count cs hi ((c :: w) ++ s) =
          if in_charset cs c then S (sre_count cs (pred <$> hi) (w ++ s)) else 0) as E.
  { destruct hi as [[|?]|]; done. }
  rewrite E, Hc. apply le_n_S, IH; [done|]. by apply upto_pred.
Qed.

Lemma backtrack_Some {A} (tail : ptr -> option A) s lo n r :
  backtrack tail s lo n = Some r ->
  exists j, lo <= j <= n /\ tail (drop j s) = Some r.
Proof.
  induction n as [|n IH]; simpl.
  - destruct lo; simpl; [|done].
    destruct (tail (drop 0 s)) eqn:E; [|done].
    intros [= <-]. exists 0. split; [lia | done].
  - destruct (S n <? lo) eqn:Hlt; [done|].
    apply Nat.ltb_ge in Hlt.
    destruct (tail (drop (S n) s)) eqn:E.
    + intros [= <-]. exists (S n). split; [lia | done].
    + intros Hb. destruct (IH Hb) as (j & Hj & Hr). exists j. split; [lia | done].
Qed.

Lemma backtrack_is_Some {A} (tail : ptr -> option A) s lo n j :
  lo <= j <= n -> is_Some (tail (drop j s)) -> is_Some (backtrack tail s lo n).
Proof.
  intros Hj Ht. induction n as [|n IH].
  - assert (j = 0) as -> by lia. assert (lo = 0) as -> by lia.
    simpl. destruct Ht as [r ->]. by eexists.
  - simpl. assert ((S n <? lo) = false) as -> by (apply Nat.ltb_ge; lia).
    destruct (tail (drop (S n) s)) eqn:E; [by eexists|].
    destruct (decide (j = S n)) as [->|Hne].
    + rewrite E in Ht. by destruct Ht.
    + apply IH. lia.
Qed.

Lemma at_end_spec s : at_end s = true <-> s = [] \/ s = [0x0a%N].
Proof.
  destruct s as [|c [|c' s]]; simpl.
  - split; [by left | done].
  - rewrite N.eqb_eq. split; [intros ->; by right | by intros [|[= ->]]].
  - split; [done | by intros [|]].
Qed.

Lemma sre_match_sound code start s mk mk' :
  sre_match code start s mk = Some mk' -> sem code start s mk mk'.
Proof.
  revert s mk. induction code as [|[a|i] code IH]; intros s mk; simpl.
  - by intros [= <-].
  - destruct a as [| |c|lo hi cs].
    + destruct (length s =? length start) eqn:E; [|done].
      apply Nat.eqb_eq in E. intros Hm. split; [done | by apply IH].
    + destruct (at_end s) eqn:E; [|done].
      apply at_end_spec in E. intros Hm. split; [done | by apply IH].
    + destruct s as [|x s]; [done|].
      destruct (x =? c)%N eqn:E; [|done].
      apply N.eqb_eq in E as ->. intros Hm. exists s. split; [done | by apply IH].
    + intros Hb. apply backtrack_Some in Hb as (j & [Hlo Hj] & Hm).
      apply sre_count_take in Hj as (Hcs & Hhi & Hlen).
      exists (take j s), (drop j s). split; [by rewrite take_drop|].
      split; [|by apply IH].
      repeat split; [done | | ]; by rewrite length_take_le.
  - apply IH.
Qed.

Lemma sre_match_complete code start s mk mk' :
  sem code start s mk mk' -> is_Some (sre_match code start s mk).
Proof.
  revert s mk. induction code as [|[a|i] code IH]; intros s mk; simpl.
  - by eexists.
  - destruct a as [| |c|lo hi cs].
    + intros [E Hs]. apply Nat.eqb_eq in E as ->. by eapply IH.
    + intros [E Hs]. apply at_end_spec in E as ->. by eapply IH.
    + intros (s' & -> & Hs). rewrite N.eqb_refl. by eapply IH.
    + intros (w & s' & -> & (Hcs & Hlo & Hhi) & Hs).
      apply backtrack_is_Some with (j := length w).
      * split; [done | by apply sre_count_max].
      * rewrite drop_app_length. by eapply IH.
  - apply IH.
Qed.

(** * The pattern *)

Lemma LOG_RE_compile : compile 0 LOG_RE = LOG_RE_code.
Proof. reflexivity. Qed.

Lemma between_app w e : between (w ++ e) e = w.
Proof.
  unfold between. rewrite length_app.
  replace (length w + length e - length e) with (length w) by lia.
  by rewrite take_app_length.
Qed.

Lemma group_intro p s (mk : marks) name g (b e : ptr) w :
  groupindex 0 p name = Some g ->
  mk !! (2 * (g - 1)) = Some (Some b) ->
  mk !! (2 * (g - 1) + 1) = Some (Some e) ->
  b = w ++ e ->
  group {| m_string := s; m_pattern := p; m_marks := mk |} name = Some w.
Proof.
  intros Hg Hb He Hw. unfold group.
  cbn [m_pattern m_marks]. rewrite Hg. cbn [mbind option_bind].
  rewrite Hb. cbn [mjoin option_join mbind option_bind].
  rewrite He. cbn [mjoin option_join mbind option_bind].
  by rewrite Hw, between_app.
Qed.

Lemma Match_end_intro p s (mk : marks) name g (e : ptr) :
  groupindex 0 p name = Some g ->
  mk !! (2 * (g - 1) + 1) = Some (Some e) ->
  Match_end {| m_string := s; m_pattern := p; m_marks := mk |} name = Some e.
Proof.
  intros Hg He. unfold Match_end.
  cbn [m_pattern m_marks]. rewrite Hg. cbn [mbind option_bind].
  by rewrite He.
Qed.

(** Peel one repeat, or one literal, off the semantics of a pattern. *)
Ltac take_run E w :=
  let s := fresh "s" in
  let R := fresh "R_" w in
  destruct E as (w & s & -> & R & E).

Ltac take_lit E :=
  let s := fresh "s" in
  destruct E as (s & -> & E).

Lemma run_of_space_end w s :
  run_of 0 None (IN CATEGORY_SPACE) w -> s = [] \/ s = [0x0a%N] ->
  run_of 0 None (IN CATEGORY_SPACE) (w ++ s).
Proof.
  intros (Hw & _ & _) Hs. repeat split; [|lia].
  rewrite forallb_app, Hw. by destruct Hs as [-> | ->].
Qed.

Lemma LOG_RE_sound line m :
  re_match LOG_RE line = Some m ->
  exists p,
    Grammar.wf p /\ line = Grammar.render p /\ Grammar.captures m p /\
    Match_end m "http_user_agent" = Some (dquote :: Grammar.tail p).
Proof.
  unfold re_match. rewrite LOG_RE_compile.
  destruct (sre_match _ _ _ _) as [mk|] eqn:E; [|done].
  simpl. intros [= <-].
  apply sre_match_sound in E.
  unfold LOG_RE_code in E. cbn [sem] in E. destruct E as [_ E].
  take_run E remote_addr. take_run E ws1. take_run E ident. take_run E ws2.
  take_run E remote_user. take_run E ws3.
  take_lit E. take_run E time_local. take_lit E. take_run E ws4.
  take_lit E. take_run E request. take_lit E. take_run E ws5.
  take_run E status. take_run E ws6.
  take_run E body_bytes_sent. take_run E ws7.
  take_lit E. take_run E http_referer. take_lit E. take_run E ws8.
  take_lit E. take_run E http_user_agent. take_lit E. take_run E ws9.
  take_run E request_length. take_run E ws10.
  take_run E request_time. take_run E ws11.
  take_lit E. take_run E upstream_name. take_lit E. take_run E ws12.
  take_lit E. take_run E upstream_other. take_lit E. take_run E ws13.
  take_run E upstream_addr. take_run E ws14.
  take_run E upstream_response_length. take_run E ws15.
  take_run E upstream_response_time. take_run E ws16.
  take_run E upstream_status. take_run E ws17.
  take_run E request_id.
  destruct E as (ws18 & rest & -> & R_ws18 & Hend & ->).
  exists (Grammar.Build_t
            remote_addr ws1 ident ws2 remote_user ws3 time_local ws4
            request ws5 status ws6 body_bytes_sent ws7 http_referer ws8
            http_user_agent ws9 request_length ws10 request_time ws11
            upstream_name ws12 upstream_other ws13 upstream_addr ws14
            upstream_response_length ws15 upstream_response_time ws16
            upstream_status ws17 request_id (ws18 ++ rest)).
  split; [|split; [|split]].
  - pose proof (run_of_space_end _ _ R_ws18 Hend).
    split; repeat (split; [assumption|]); assumption.
  - unfold Grammar.render, Grammar.tail, Grammar.bracketed, Grammar.quoted.
    simpl. by rewrite <- !app_assoc.
  - unfold Grammar.captures, Grammar.groups, Grammar.bracketed.
    repeat apply Forall_cons_2; [..|apply Forall_nil_2]; simpl fst; simpl snd;
      (eapply group_intro; [reflexivity | reflexivity | reflexivity |]);
      simpl; by rewrite <- ?app_assoc.
  - erewrite Match_end_intro; [|reflexivity|reflexivity].
    unfold Grammar.tail, Grammar.bracketed. simpl. by rewrite <- ?app_assoc.
Qed.

Ltac give_run := do 2 eexists; split; [reflexivity|]; split; [eassumption|].
Ltac give_lit := eexists; split; [reflexivity|].

Lemma LOG_RE_complete p :
  Grammar.wf p -> is_Some (re_match LOG_RE (Grammar.render p)).
Proof.
  intros [Hh Ht]. unfold Grammar.wf_head in Hh. unfold Grammar.wf_tail in Ht.
  repeat match goal with H : _ /\ _ |- _ => destruct H end.
  unfold re_match. rewrite LOG_RE_compile.
  match goal with
  | |- is_Some (?x ≫= _) => assert (is_Some x) as [mk ->]; [|by eexists]
  end.
  eapply sre_match_complete with (mk' := _).
  unfold LOG_RE_code. cbn [sem].
  unfold Grammar.render, Grammar.tail, Grammar.bracketed, Grammar.quoted.
  simpl. rewrite <- !app_assoc. simpl.
  split; [done|].
  repeat first [give_run | give_lit].
  exists (Grammar.ws18 p), []. split; [by rewrite app_nil_r|].
  split; [eassumption|]. split; [by left | reflexivity].
Qed.


(** * The grammar of the pattern *)

(** C6, as the code has it. A line matches, from its start to its end, if
    and only if it is: address, one more token (any run without whitespace),
    user, bracketed timestamp, quoted request, three decimal digits of
    status, body size, quoted referer, quoted user agent, request length,
    request time, two bracketed upstream fields, upstream address, response
    length, response time, status and request id, with runs of whitespace
    between them and possibly after the last. *)
Theorem LOG_RE_grammar line :
  is_Some (re_match LOG_RE line) <->
  exists p, Grammar.wf p /\ line = Grammar.render p.
Proof.
  split.
  - intros [m Hm]. destruct (LOG_RE_sound _ _ Hm) as (p & ? & ? & _).
    by exists p.
  - intros (p & Hwf & ->). by apply LOG_RE_complete.
Qed.

(** C6, as the specification has it, fails: a line whose token between the
    address and the user is [x] matches, and nothing stands between its
    user and its timestamp. *)
Lemma dash_not_required :
  exists m,
    re_match LOG_RE line_without_dash = Some m /\
    group m "remote_addr" = Some (u "127.0.0.1") /\
    group m "remote_user" = Some (u "bob") /\
    take 4 (fields line_without_dash) =
      [u "127.0.0.1"; u "x"; u "bob"; u "[10/Oct/2023:13:55:36"] /\
    u "x" <> u "-".
Proof.
  eexists. split; [vm_compute; reflexivity|].
  repeat split; try (vm_compute; reflexivity). discriminate.
Qed.

(** * The fields after the user agent *)

Lemma fields_cons c s :
  fields (c :: s) =
  if Py_UNICODE_ISSPACE c then fields s
  else match s with
       | [] => [[c]]
       | c' :: _ =>
           if Py_UNICODE_ISSPACE c' then [c] :: fields s
           else match fields s with
                | w :: ws => (c :: w) :: ws
                | [] => [[c]]
                end
       end.
Proof. reflexivity. Qed.

Lemma fields_space w s :
  forallb Py_UNICODE_ISSPACE w = true -> fields (w ++ s) = fields s.
Proof.
  induction w as [|c w IH]; [done|].
  intros [Hc Hw]%andb_prop. rewrite <- app_comm_cons, fields_cons, Hc. auto.
Qed.

Lemma fields_token t s :
  Grammar.token t ->
  s = [] \/ (exists c s', s = c :: s' /\ Py_UNICODE_ISSPACE c = true) ->
  fields (t ++ s) = t :: fields s.
Proof.
  intros (Ht & Hlen & _) Hs. induction t as [|c t IH]; [simpl in Hlen; lia|].
  simpl in Ht. apply andb_prop in Ht as [Hc Ht].
  apply negb_true_iff in Hc.
  rewrite <- app_comm_cons, fields_cons, Hc.
  destruct t as [|c' t].
  - simpl. destruct Hs as [-> | (x & s' & -> & Hx)]; [done|]. by rewrite Hx.
  - assert (Py_UNICODE_ISSPACE c' = false) as Hc'.
    { simpl in Ht. apply andb_prop in Ht as [Hc' _].
      by apply negb_true_iff in Hc'. }
    rewrite <- app_comm_cons, Hc', app_comm_cons, IH; [done.. | simpl; lia].
Qed.

Lemma fields_token_space t w s :
  Grammar.token t -> run_of 0 None (IN CATEGORY_SPACE) w ->
  w <> [] \/ s = [] ->
  fields (t ++ w ++ s) = t :: fields s.
Proof.
  intros Ht (Hw & _ & _) Hne. rewrite fields_token; [|done|].
  - by rewrite fields_space.
  - destruct w as [|c w].
    + destruct Hne as [? | ->]; [done | by left].
    + right. exists c, (w ++ s). split; [done|].
      simpl in Hw. by apply andb_prop in Hw as [? _].
Qed.

Lemma space_run w : Grammar.space w -> run_of 0 None (IN CATEGORY_SPACE) w /\ w <> [].
Proof.
  intros (Hw & Hlen & _). split; [repeat split; [done | lia]|].
  intros ->. simpl in Hlen. lia.
Qed.

Lemma bracketed_token w :
  forallb (in_charset (IN CATEGORY_NOT_SPACE)) w = true ->
  Grammar.token (Grammar.bracketed w).
Proof.
  intros Hw. repeat split; [|simpl; lia].
  unfold Grammar.bracketed. simpl. by rewrite forallb_app, Hw.
Qed.

(** C7, as the code has it. After the quoted user agent a matched line has
    exactly nine fields: request length, request time, two bracketed
    upstream fields, upstream address, response length, response time,
    status and request id; brackets may hold whitespace, and where they do
    not, splitting the rest of the line at whitespace gives these nine. *)
Theorem nine_fields_after_user_agent line m :
  re_match LOG_RE line = Some m ->
  exists p,
    Grammar.wf p /\ line = Grammar.render p /\
    Match_end m "http_user_agent" = Some (dquote :: Grammar.tail p) /\
    (forallb (in_charset (IN CATEGORY_NOT_SPACE)) (Grammar.upstream_name p) = true ->
     forallb (in_charset (IN CATEGORY_NOT_SPACE)) (Grammar.upstream_other p) = true ->
     fields (Grammar.tail p) =
       [ Grammar.request_length p; Grammar.request_time p;
         Grammar.bracketed (Grammar.upstream_name p);
         Grammar.bracketed (Grammar.upstream_other p);
         Grammar.upstream_addr p; Grammar.upstream_response_length p;
         Grammar.upstream_response_time p; Grammar.upstream_status p;
         Grammar.request_id p ]).
Proof.
  intros Hm. destruct (LOG_RE_sound _ _ Hm) as (p & Hwf & Hl & _ & He).
  exists p. do 3 (split; [done|]). intros Hn Ho.
  destruct Hwf as [_ Ht]. unfold Grammar.wf_tail in Ht.
  repeat match goal with H : _ /\ _ |- _ => destruct H end.
  repeat match goal with
         | H : Grammar.space _ |- _ => apply space_run in H as [? ?]
         end.
  apply bracketed_token in Hn, Ho.
  unfold Grammar.tail.
  match goal with H : run_of _ _ _ (Grammar.ws9 p) |- _ => destruct H as (Hs & _) end.
  rewrite fields_space by done.
  do 8 (rewrite fields_token_space; [|by auto..]).
  rewrite <- (app_nil_r (Grammar.ws18 p)).
  rewrite fields_token_space; [done | done | done | by right].
Qed.

(** C7, as the specification has it, fails: the example line matches with
    nine fields after its user agent, not nineteen. *)
Lemma nine_not_nineteen :
  exists m rest,
    re_match LOG_RE example_line = Some m /\
    Match_end m "http_user_agent" = Some (dquote :: rest) /\
    rest = u " 123 0.002 [-] [-] - - - - abc123" /\
    length (fields rest) = 9 /\ 9 <> 19.
Proof.
  eexists _, _. split; [vm_compute; reflexivity|].
  split; [vm_compute; reflexivity|].
  split; [reflexivity|]. split; [vm_compute; reflexivity | lia].
Qed.

(** The nine fields of the example line. *)
Lemma nine_fields_after_user_agent_witness :
  exists m,
    re_match LOG_RE example_line = Some m /\
    exists p,
      Grammar.wf p /\ example_line = Grammar.render p /\
      Match_end m "http_user_agent" = Some (dquote :: Grammar.tail p) /\
      (forallb (in_charset (IN CATEGORY_NOT_SPACE)) (Grammar.upstream_name p) = true ->
       forallb (in_charset (IN CATEGORY_NOT_SPACE)) (Grammar.upstream_other p) = true ->
       fields (Grammar.tail p) =
         [ Grammar.request_length p; Grammar.request_time p;
           Grammar.bracketed (Grammar.upstream_name p);
           Grammar.bracketed (Grammar.upstream_other p);
           Grammar.upstream_addr p; Grammar.upstream_response_length p;
           Grammar.upstream_response_time p; Grammar.upstream_status p;
           Grammar.request_id p ]).
Proof.
  destruct (re_match LOG_RE example_line) as [m|] eqn:E;
    [|vm_compute in E; discriminate E].
  exists m. split; [reflexivity|].
  exact (nine_fields_after_user_agent example_line m E).
Defined.

(** * One reading per line *)

Lemma space_below c : Py_UNICODE_ISSPACE c = true -> (c <= 0x3000)%N.
Proof.
  unfold Py_UNICODE_ISSPACE, in_ranges. simpl.
  rewrite !orb_true_iff, !andb_true_iff, !N.leb_le. lia.
Qed.

Lemma all_from_spec P c n x :
  all_from P c n = true -> (c <= x < c + N.of_nat n)%N -> P x = true.
Proof.
  revert c. induction n as [|n IH]; intros c; simpl; [lia|].
  intros [Hc Hn]%andb_prop Hx.
  destruct (N.eq_dec x c) as [->|Hne]; [done|].
  apply (IH (N.succ c)); [done | lia].
Qed.

Lemma digit_not_space_below :
  all_from (fun c => negb (Py_UNICODE_ISSPACE c && Py_UNICODE_ISDECIMAL c))
           0 (N.to_nat 0x3001) = true.
Proof. vm_compute. reflexivity. Qed.

Lemma space_not_digit c :
  Py_UNICODE_ISSPACE c = true -> Py_UNICODE_ISDECIMAL c = false.
Proof.
  intros Hs. pose proof (space_below c Hs) as Hc.
  pose proof (all_from_spec _ _ _ c digit_not_space_below) as Hall.
  cbv beta in Hall. rewrite Hs in Hall.
  apply negb_true_iff. apply Hall. lia.
Qed.

Lemma span_unique cs a a' r r' :
  forallb (in_charset cs) a = true -> forallb (in_charset cs) a' = true ->
  stops cs r -> stops cs r' ->
  a ++ r = a' ++ r' -> a = a' /\ r = r'.
Proof.
  revert a'. induction a as [|x a IH]; intros [|x' a'] Ha Ha' Hr Hr' E; simpl in *.
  - done.
  - subst r. simpl in Hr. apply andb_prop in Ha' as [Hx _]. congruence.
  - subst r'. simpl in Hr'. apply andb_prop in Ha as [Hx _]. congruence.
  - injection E as -> E. apply andb_prop in Ha as [_ Ha].
    apply andb_prop in Ha' as [_ Ha'].
    destruct (IH a' Ha Ha' Hr Hr' E) as [-> ->]. done.
Qed.

Lemma apart_token_space : apart (IN CATEGORY_NOT_SPACE) (IN CATEGORY_SPACE).
Proof. intros c Hc. simpl in *. by rewrite Hc. Qed.

Lemma apart_space_token : apart (IN CATEGORY_SPACE) (IN CATEGORY_NOT_SPACE).
Proof. intros c Hc. simpl in *. by apply negb_true_iff. Qed.

Lemma apart_digit_space : apart (IN CATEGORY_DIGIT) (IN CATEGORY_SPACE).
Proof. intros c Hc. by apply space_not_digit. Qed.

Lemma apart_space_digit : apart (IN CATEGORY_SPACE) (IN CATEGORY_DIGIT).
Proof.
  intros c Hc. simpl in *. destruct (Py_UNICODE_ISSPACE c) eqn:Hs; [|done].
  apply space_not_digit in Hs. congruence.
Qed.

Lemma stops_run cs lo hi cs' w r :
  run_of lo hi cs' w -> 1 <= lo -> apart cs cs' -> stops cs (w ++ r).
Proof.
  intros (Hw & Hlen & _) Hlo Ha. destruct w as [|c w]; [simpl in Hlen; lia|].
  simpl in *. apply andb_prop in Hw as [Hc _]. by apply Ha.
Qed.

Lemma stops_end cs lo hi cs' w :
  run_of lo hi cs' w -> apart cs cs' -> stops cs w.
Proof.
  intros (Hw & _) Ha. destruct w as [|c w]; [done|].
  simpl in *. apply andb_prop in Hw as [Hc _]. by apply Ha.
Qed.

Ltac apart_tac :=
  first [ apply apart_token_space | apply apart_space_token
        | apply apart_digit_space | apply apart_space_digit ].

Ltac stops_tac :=
  first [ exact eq_refl
        | eapply stops_run; [eassumption | lia | apart_tac]
        | eapply stops_end; [eassumption | apart_tac] ].

(** One step of reading two renderings side by side: a literal, or a run
    that ends where its set ends. *)
Ltac peel H :=
  match type of H with
  | ?a ++ ?r = ?a' ++ ?r' =>
      match goal with
      | Ra : run_of _ _ ?cs a, Ra' : run_of _ _ ?cs a' |- _ =>
          let Ha := fresh "Ha" in
          let Hr := fresh "Hr" in
          destruct (span_unique cs a a' r r' (proj1 Ra) (proj1 Ra'))
            as [Ha Hr]; [stops_tac | stops_tac | exact H |];
          clear H; rename Hr into H; subst a
      end
  | _ :: _ = _ :: _ => injection H as H
  end.

Lemma render_inj p p' :
  Grammar.wf p -> Grammar.wf p' -> Grammar.render p = Grammar.render p' ->
  p = p'.
Proof.
  intros [Hh Ht] [Hh' Ht'] E. destruct p, p'.
  unfold Grammar.wf_head, Grammar.wf_tail, Grammar.token, Grammar.space,
    Grammar.without in *. simpl in Hh, Ht, Hh', Ht'.
  repeat match goal with H : _ /\ _ |- _ => destruct H end.
  unfold Grammar.render, Grammar.tail, Grammar.bracketed, Grammar.quoted in E.
  simpl in E. rewrite <- !app_assoc in E. simpl in E.
  repeat peel E. by subst.
Qed.

(** The match of a well-formed line captures its fields. *)
Lemma LOG_RE_captures p :
  Grammar.wf p ->
  exists m, re_match LOG_RE (Grammar.render p) = Some m /\ Grammar.captures m p.
Proof.
  intros Hwf. destruct (LOG_RE_complete p Hwf) as [m Hm].
  destruct (LOG_RE_sound _ _ Hm) as (p' & Hwf' & E & Hc & _).
  apply render_inj in E; [|done..]. subst p'. by exists m.
Qed.


(** * What a match holds *)

Lemma wf_set_ws18 w p :
  Grammar.wf p -> forallb Py_UNICODE_ISSPACE w = true ->
  Grammar.wf (set_ws18 w p).
Proof.
  intros [Hh Ht] Hw. split; [exact Hh|].
  unfold Grammar.wf_tail in *. simpl.
  repeat match goal with
         | H : _ /\ _ |- _ /\ _ => destruct H as [? H]; split; [assumption|]
         end.
  repeat split; [done | simpl; lia].
Qed.

Lemma render_app p w :
  Grammar.render p ++ w = Grammar.render (set_ws18 (Grammar.ws18 p ++ w) p).
Proof.
  unfold Grammar.render, Grammar.tail, Grammar.bracketed, Grammar.quoted.
  simpl. repeat first [rewrite <- app_assoc | rewrite <- app_comm_cons].
  reflexivity.
Qed.

Lemma without_not_elem c lo w :
  Grammar.without c lo w -> c ∉ w.
Proof.
  intros (Hw & _). induction w as [|x w IH]; [apply not_elem_of_nil|].
  simpl in Hw. apply andb_prop in Hw as [Hx Hw].
  apply negb_true_iff, N.eqb_neq in Hx.
  apply not_elem_of_cons. split; [congruence | by apply IH].
Qed.

Lemma token_shape w :
  Grammar.token w ->
  w <> [] /\ forallb (fun c => negb (Py_UNICODE_ISSPACE c)) w = true.
Proof.
  intros (Hw & Hlen & _). split; [|exact Hw].
  intros ->. simpl in Hlen. lia.
Qed.

(** The groups of a match, one by one. *)
Ltac groups_of Hc :=
  unfold Grammar.captures, Grammar.groups in Hc;
  repeat match type of Hc with
         | Forall _ (_ :: _) =>
             let G := fresh "G" in
             apply Forall_cons in Hc as [G Hc]; cbn [fst snd] in G
         end;
  clear Hc.

Lemma example_fields_wf : Grammar.wf example_fields.
Proof.
  unfold Grammar.wf, Grammar.wf_head, Grammar.wf_tail, Grammar.token,
    Grammar.space, Grammar.without, run_of. simpl.
  repeat split; first [reflexivity | lia].
Defined.

(** A line made of seventeen well-formed fields, with any whitespace
    between them, matches, and each group of the match is the field put
    there; the line has no other reading. *)
Theorem fields_are_captured p :
  Grammar.wf p ->
  (exists m, re_match LOG_RE (Grammar.render p) = Some m /\
             Grammar.captures m p) /\
  forall p', Grammar.wf p' -> Grammar.render p' = Grammar.render p -> p' = p.
Proof.
  intros Hwf. split; [by apply LOG_RE_captures|].
  intros p' Hwf' E. by apply render_inj.
Qed.

(** The example line, from its fields. *)
Lemma fields_are_captured_witness :
  Grammar.wf example_fields /\
  Grammar.render example_fields = example_line /\
  (exists m, re_match LOG_RE (Grammar.render example_fields) = Some m /\
             Grammar.captures m example_fields) /\
  forall p', Grammar.wf p' ->
             Grammar.render p' = Grammar.render example_fields ->
             p' = example_fields.
Proof.
  split; [exact example_fields_wf|]. split; [vm_compute; reflexivity|].
  exact (fields_are_captured example_fields example_fields_wf).
Defined.

(** Whitespace after a line that matches changes nothing: the longer line
    matches too, and every group is the same. *)
Theorem trailing_whitespace_ignored line w m :
  re_match LOG_RE line = Some m ->
  forallb Py_UNICODE_ISSPACE w = true ->
  exists m',
    re_match LOG_RE (line ++ w) = Some m' /\
    Forall (fun name => group m' name = group m name) group_names.
Proof.
  intros Hm Hw.
  destruct (LOG_RE_sound _ _ Hm) as (p & Hwf & -> & Hc & _).
  assert (Grammar.wf (set_ws18 (Grammar.ws18 p ++ w) p)) as Hwf'.
  { apply wf_set_ws18; [done|]. rewrite forallb_app, Hw.
    destruct Hwf as [_ Ht]. unfold Grammar.wf_tail in Ht.
    destruct Ht as (_&_&_&_&_&_&_&_&_&_&_&_&_&_&_&_&_&_&(Hs&_)).
    change (forallb Py_UNICODE_ISSPACE (Grammar.ws18 p) = true) in Hs.
    by rewrite Hs. }
  rewrite render_app.
  destruct (LOG_RE_captures _ Hwf') as (m' & -> & Hc').
  exists m'. split; [done|].
  groups_of Hc. groups_of Hc'. cbn in *.
  unfold group_names. repeat constructor; congruence.
Qed.

(** The example line followed by a tab, a space and a newline. *)
Lemma trailing_whitespace_ignored_witness :
  exists m,
    re_match LOG_RE example_line = Some m /\
    forallb Py_UNICODE_ISSPACE [0x09; 0x20; 0x0a]%N = true /\
    exists m',
      re_match LOG_RE (example_line ++ [0x09; 0x20; 0x0a]%N) = Some m' /\
      Forall (fun name => group m' name = group m name) group_names.
Proof.
  destruct (re_match LOG_RE example_line) as [m|] eqn:E;
    [|vm_compute in E; discriminate E].
  exists m. split; [reflexivity|]. split; [reflexivity|].
  exact (trailing_whitespace_ignored example_line [0x09; 0x20; 0x0a]%N m
           E eq_refl).
Defined.

(** A line that matches starts with a character that is no whitespace: an
    empty line, a blank line and an indented line do not match. *)
Theorem matched_line_starts_with_token line m :
  re_match LOG_RE line = Some m ->
  exists c rest, line = c :: rest /\ Py_UNICODE_ISSPACE c = false.
Proof.
  intros Hm. destruct (LOG_RE_sound _ _ Hm) as (p & [Hh _] & -> & _).
  destruct Hh as ((Ha & Hlen & _) & _).
  destruct (Grammar.remote_addr p) as [|c a] eqn:Ea; [simpl in Hlen; lia|].
  simpl in Ha. apply andb_prop in Ha as [Hc _]. apply negb_true_iff in Hc.
  unfold Grammar.render. rewrite Ea. simpl. by eexists _, _.
Qed.

Lemma matched_line_starts_with_token_witness :
  exists m,
    re_match LOG_RE example_line = Some m /\
    exists c rest, example_line = c :: rest /\ Py_UNICODE_ISSPACE c = false.
Proof.
  destruct (re_match LOG_RE example_line) as [m|] eqn:E;
    [|vm_compute in E; discriminate E].
  exists m. split; [reflexivity|].
  exact (matched_line_starts_with_token example_line m E).
Defined.

(** The groups of a match have the shape the pattern gives them: the ten
    groups taken with [\S+] are not empty and hold no whitespace, the status
    is three decimal digits, the time is not empty and holds no closing
    bracket, request, referer and user agent hold no double quote, and the
    two upstream groups start and end with their brackets and hold no other
    closing bracket. *)
Theorem groups_have_shape line m :
  re_match LOG_RE line = Some m ->
  Forall (fun name =>
            exists v, group m name = Some v /\ v <> [] /\
                      forallb (fun c => negb (Py_UNICODE_ISSPACE c)) v = true)
         token_groups /\
  (exists s, group m "status" = Some s /\ length s = 3 /\
             forallb Py_UNICODE_ISDECIMAL s = true) /\
  (exists t, group m "time_local" = Some t /\ t <> [] /\ (rbracket ∉ t)) /\
  (exists r a b, group m "request" = Some r /\
                 group m "http_referer" = Some a /\
                 group m "http_user_agent" = Some b /\
                 (dquote ∉ r) /\ (dquote ∉ a) /\ (dquote ∉ b)) /\
  (exists a b, group m "upstream_name" = Some (lbracket :: a ++ [rbracket]) /\
               group m "upstream_other" = Some (lbracket :: b ++ [rbracket]) /\
               (rbracket ∉ a) /\ (rbracket ∉ b)).
Proof.
  intros Hm. destruct (LOG_RE_sound _ _ Hm) as (p & [Hh Ht] & _ & Hc & _).
  unfold Grammar.wf_head in Hh. unfold Grammar.wf_tail in Ht.
  repeat match goal with H : _ /\ _ |- _ => destruct H end.
  groups_of Hc.
  split; [|split; [|split; [|split]]].
  - unfold token_groups.
    repeat apply Forall_cons_2; [..|apply Forall_nil_2];
      (eexists; split; [eassumption|]; by apply token_shape).
  - eexists. split; [eassumption|].
    match goal with H : run_of 3 _ _ _ |- _ => destruct H as (Hd & Hlo & Hhi) end.
    simpl in Hhi. split; [lia | exact Hd].
  - eexists. split; [eassumption|]. split; [|by eapply without_not_elem].
    match goal with H : Grammar.without rbracket 1 _ |- _ => destruct H as (_ & Hlen & _) end.
    intros E. rewrite E in Hlen. simpl in Hlen. lia.
  - eexists _, _, _. do 3 (split; [eassumption|]).
    repeat split; by eapply without_not_elem.
  - eexists _, _. do 2 (split; [eassumption|]).
    split; by eapply without_not_elem.
Qed.

Lemma groups_have_shape_witness :
  exists m,
    re_match LOG_RE example_line = Some m /\
    Forall (fun name =>
              exists v, group m name = Some v /\ v <> [] /\
                        forallb (fun c => negb (Py_UNICODE_ISSPACE c)) v = true)
           token_groups /\
    (exists s, group m "status" = Some s /\ length s = 3 /\
               forallb Py_UNICODE_ISDECIMAL s = true) /\
    (exists t, group m "time_local" = Some t /\ t <> [] /\ (rbracket ∉ t)) /\
    (exists r a b, group m "request" = Some r /\
                   group m "http_referer" = Some a /\
                   group m "http_user_agent" = Some b /\
                   (dquote ∉ r) /\ (dquote ∉ a) /\ (dquote ∉ b)) /\
    (exists a b, group m "upstream_name" = Some (lbracket :: a ++ [rbracket]) /\
                 group m "upstream_other" = Some (lbracket :: b ++ [rbracket]) /\
                 (rbracket ∉ a) /\ (rbracket ∉ b)).
Proof.
  destruct (re_match LOG_RE example_line) as [m|] eqn:E;
    [|vm_compute in E; discriminate E].
  exists m. split; [reflexivity|].
  exact (groups_have_shape example_line m E).
Defined.

(** * The file as it stands *)

Lemma parse_nginx_log_py_layout :
  layout parse_nginx_log_py = Some (IndentationError unexpected_indent 83).
Proof. vm_compute. reflexivity. Qed.

(** The rules at work on small files: a block that is missing, an indent
    without a block, a dedent to no open block, tabs against spaces, lines
    joined by a backslash, by brackets and by a triple-quoted string, blank
    lines and comments at any column, and the shape of the file itself. *)
Example layout_by_example :
  layout ["if x:"; "pass"]%string =
    Some (IndentationError expected_an_indented_block 2) /\
  layout ["if x:"]%string =
    Some (IndentationError expected_an_indented_block 1) /\
  layout ["  pass"]%string = Some (IndentationError unexpected_indent 1) /\
  layout ["if x:"; "    if y:"; "  pass"]%string =
    Some (IndentationError unindent_does_not_match 3) /\
  layout ["if x:"; "    pass"; String tab "pass"]%string =
    Some (IndentationError inconsistent_tabs 3) /\
  layout ["if x:"; String tab "pass"]%string = None /\
  layout ["x = 1 \"; EmptyString; "y = 2"]%string = None /\
  layout ["x = (1,"; "        2)"; "y = [3,"; "4]"]%string = None /\
  layout ["~~~doc"; "    string~~~"; "x = '# (' # ["]%string = None /\
  layout ["if x:"; "    pass"; EmptyString; "  # c"; "pass"]%string = None /\
  layout ["x = (1,"]%string = Some (SyntaxError 1) /\
  layout ["def f():"; "    with a as b, \"; "         c as d:"; EmptyString;
          "        w = 1"; "w.row(["; "    ~a~,"; "])"; EmptyString;
          "        for l in f:"; "            pass"]%string =
    Some (IndentationError unexpected_indent 10).
Proof. repeat split; vm_compute; reflexivity. Qed.

(** A run of the file ends where it starts. *)
Lemma python3_refused {W A} (statements : M W A) (st : State W) :
  python3 parse_nginx_log_py statements st =
  Raise (IndentationError unexpected_indent 83) st.
Proof. unfold python3. by rewrite parse_nginx_log_py_layout. Qed.

Lemma no_export (log : str) : disk_with_log log !! u "out.csv" = None.
Proof.
  unfold disk_with_log. apply lookup_singleton_ne.
  intros E. vm_compute in E. discriminate E.
Qed.

(** The layout of the file is broken in two places and nowhere else, the two
    [writer.writerow] statements. The lines up to 60 are laid out well; the
    file is refused at line 83; with the statement of lines 61-81 moved into
    the [with] block it is refused at line 117, after the second statement;
    with that one moved into the loop as well, the layout is accepted; and
    moving the second alone leaves the error of line 83. *)
Theorem two_statements_out_of_place :
  layout (take 60 parse_nginx_log_py) = None /\
  layout parse_nginx_log_py = Some (IndentationError unexpected_indent 83) /\
  layout (indented 61 81 8 parse_nginx_log_py) =
    Some (IndentationError unexpected_indent 117) /\
  layout (indented 95 115 12 parse_nginx_log_py) =
    Some (IndentationError unexpected_indent 83) /\
  layout (indented 95 115 12 (indented 61 81 8 parse_nginx_log_py)) = None.
Proof. repeat split; vm_compute; reflexivity. Qed.

(** C1 does not hold of the file as it stands. The example line matches the
    grammar and the log of the run holds it, yet the run gives no record:
    Python refuses the file at line 83, whose indentation belongs to no
    block once the [writer.writerow] statement at column 0 (lines 61-81)
    has ended [def main]. The run ends with [IndentationError] before a
    statement of the file has run, and the directory is as it was, without
    an export. *)
Theorem matching_line_gives_no_record (statements : M disk unit) :
  let log := example_line ++ [0x0a%N] in
  let r := python3 parse_nginx_log_py statements (start (disk_with_log log)) in
  is_Some (re_match LOG_RE example_line) /\
  raised r = Some (IndentationError unexpected_indent 83) /\
  world (state_of r) = disk_with_log log /\
  world (state_of r) !! u "out.csv" = None.
Proof.
  intros log r. subst r. rewrite python3_refused. cbn.
  split; [vm_compute; by eexists|]. split; [done|]. split; [done|].
  apply no_export.
Qed.

(** C2 does not hold of the file as it stands. A line whose request has two
    tokens matches, and the pattern takes the request whole; the run on a
    log that holds the line stops at the layout of the file (line 83), so
    the request is never split and no method, path or protocol is written. *)
Theorem short_request_is_not_split (statements : M disk unit) :
  let log := line_with_short_request ++ [0x0a%N] in
  let r := python3 parse_nginx_log_py statements (start (disk_with_log log)) in
  (exists m, re_match LOG_RE line_with_short_request = Some m /\
             group m "request" = Some (u "GET /index.html")) /\
  raised r = Some (IndentationError unexpected_indent 83) /\
  world (state_of r) !! u "out.csv" = None.
Proof.
  intros log r. subst r. rewrite python3_refused. cbn.
  split.
  { eexists. split; [vm_compute; reflexivity|]. vm_compute. reflexivity. }
  split; [done|].
  apply no_export.
Qed.

(** C3 does not hold of the file as it stands. The example line matches,
    with the status, the request id and the request the claim names in its
    groups; but the run on a log that holds it stops at the layout of the
    file (line 83) and gives no record. *)
Theorem example_line_gives_no_row (statements : M disk unit) :
  let log := example_line ++ [0x0a%N] in
  let r := python3 parse_nginx_log_py statements (start (disk_with_log log)) in
  (exists m, re_match LOG_RE example_line = Some m /\
             group m "request" = Some (u "GET /index.html HTTP/1.1") /\
             group m "status" = Some (u "200") /\
             group m "request_id" = Some (u "abc123")) /\
  raised r = Some (IndentationError unexpected_indent 83) /\
  world (state_of r) !! u "out.csv" = None.
Proof.
  intros log r. subst r. rewrite python3_refused. cbn.
  split.
  { eexists. split; [vm_compute; reflexivity|].
    repeat split; vm_compute; reflexivity. }
  split; [done|].
  apply no_export.
Qed.

(** C4 does not hold of the file as it stands. On a log whose first line
    does not match and whose second does, the run raises an error,
    [IndentationError] at line 83 of the file, and goes on to no line: the
    directory is as it was. *)
Theorem unmatched_line_run_raises (statements : M disk unit) :
  let log := not_a_log_line ++ [0x0a%N] ++ example_line ++ [0x0a%N] in
  let r := python3 parse_nginx_log_py statements (start (disk_with_log log)) in
  re_match LOG_RE not_a_log_line = None /\
  is_Some (re_match LOG_RE example_line) /\
  raised r = Some (IndentationError unexpected_indent 83) /\
  world (state_of r) = disk_with_log log /\
  world (state_of r) !! u "out.csv" = None.
Proof.
  intros log r. subst r. rewrite python3_refused. cbn.
  split; [vm_compute; reflexivity|]. split; [vm_compute; by eexists|].
  split; [done|]. split; [done|]. apply no_export.
Qed.

(** C5 does not hold of the file as it stands. On an empty log the run
    writes no export, not even the header, and reports no count: it prints
    nothing and ends with [IndentationError] at line 83 of the file. *)
Theorem empty_log_gives_no_export (statements : M disk unit) :
  let r := python3 parse_nginx_log_py statements (start (disk_with_log [])) in
  raised r = Some (IndentationError unexpected_indent 83) /\
  world (state_of r) !! u "out.csv" = None /\
  stdout (state_of r) = [].
Proof.
  intros r. subst r. rewrite python3_refused. cbn.
  split; [done|]. split; [apply no_export | done].
Qed.


(** C9 does not hold of the file as it stands. A run reports nothing, also
    where nothing is staged: it prints no line, starts no command, and ends
    with [IndentationError] at line 83 of the file. *)
Theorem run_reports_nothing {W} (statements : M W unit) (st : State W) :
  let r := python3 parse_nginx_log_py statements st in
  raised r = Some (IndentationError unexpected_indent 83) /\
  stdout (state_of r) = stdout st /\
  calls (state_of r) = calls st /\
  world (state_of r) = world st.
Proof.
  intros r. subst r. rewrite python3_refused. cbn. by repeat split.
Qed.

(** C10 does not hold of the file as it stands. The pattern takes the two
    upstream fields of the example line with their brackets, but the run
    on a log that holds the line stops at the layout of the file (line 83)
    and writes no column of any export. *)
Theorem upstream_columns_not_written (statements : M disk unit) :
  let log := example_line ++ [0x0a%N] in
  let r := python3 parse_nginx_log_py statements (start (disk_with_log log)) in
  (exists m, re_match LOG_RE example_line = Some m /\
             group m "upstream_name" = Some (u "[-]") /\
             group m "upstream_other" = Some (u "[-]")) /\
  raised r = Some (IndentationError unexpected_indent 83) /\
  world (state_of r) !! u "out.csv" = None.
Proof.
  intros log r. subst r. rewrite python3_refused. cbn.
  split.
  { eexists. split; [vm_compute; reflexivity|].
    repeat split; vm_compute; reflexivity. }
  split; [done|].
  apply no_export.
Qed.

(** * The helpers *)

Section Helpers.
Context {W : Type} `{Env W}.



End Helpers.

(** * The helpers on the machine *)



